(** * Basic Maths MCP server ([server.py]): shallow embedding and properties

    The server registers five tools over two [int] operands.  Four of them
    delegate to [_make_api_request]; [maths_power_numbers] computes [a ** b]
    itself and checks the result against the module constant
    [CHARACTER_LIMIT].  Every tool wraps its body in
    [try: ... except Exception as e: raise _handle_api_error(e)].

    Python is embedded as follows.
    - [int] is [Z] (unbounded); [//] is [Z.div], which rounds toward
      minus infinity like Python's floor division.
    - Dynamically typed values that validators inspect are [pyval].
    - A [float] is given by the rational number its binary64 value
      denotes.  The one [float] the code computes, [a ** b] with [b < 0],
      comes from the C library's [pow]; that function is a parameter of
      the development ([libm_pow]), so nothing is assumed about how it
      rounds.
    - Exceptions carry their class and the text that [str(e)] yields.
    - Code runs in the monad [py]: it may read the module globals and may
      raise; the globals are threaded through every call. *)

From Stdlib Require Import ZArith QArith Qround String List Bool Lia.
Import ListNotations.

Local Open Scope string_scope.
Local Open Scope Z_scope.

(** ** Python values and exceptions *)

Inductive pyval : Type :=
| PyInt (z : Z)
| PyBool (b : bool)
| PyFloat (q : Q)
| PyStr (s : string)
| PyNone.

(** [isinstance(v, int)]: [bool] is a subclass of [int]. *)
Definition isinstance_int (v : pyval) : bool :=
  match v with
  | PyInt _ | PyBool _ => true
  | PyFloat _ | PyStr _ | PyNone => false
  end.

Inductive exn_class : Type :=
| ValueError
| ZeroDivisionError
| OverflowError
| TypeError.

(** An exception instance; [exn_msg] is what [str(e)] returns. *)
Record exn : Type := mk_exn { exn_type : exn_class; exn_msg : string }.

(** Messages of the exceptions the interpreter itself raises (CPython 3.8
    to 3.13 wording). *)
Definition msg_int_div_zero : string := "integer division or modulo by zero".
Definition msg_zero_neg_power : string :=
  "0.0 cannot be raised to a negative power".
Definition msg_int_too_large : string := "int too large to convert to float".
Definition msg_raise_non_exception : string :=
  "exceptions must derive from BaseException".
Definition msg_gt_str_int : string :=
  "'>' not supported between instances of 'str' and 'int'".
Definition msg_gt_none_int : string :=
  "'>' not supported between instances of 'NoneType' and 'int'".

(** ** Module globals and the execution monad *)

(** The only data binding of the module that a function looks up. *)
Record globals : Type := mk_globals { CHARACTER_LIMIT : Z }.

(** State of the module once it has been imported:
    [CHARACTER_LIMIT = 1000]. *)
Definition module_init : globals := {| CHARACTER_LIMIT := 1000 |}.

Inductive outcome (A : Type) : Type :=
| Return (v : A)
| Raise (e : exn).
Arguments Return {A} v.
Arguments Raise {A} e.

Definition py (A : Type) : Type := globals -> outcome A * globals.

Definition ret {A : Type} (v : A) : py A := fun g => (Return v, g).

Definition raise {A : Type} (e : exn) : py A := fun g => (Raise e, g).

Definition bind {A B : Type} (m : py A) (k : A -> py B) : py B :=
  fun g =>
    match m g with
    | (Return v, g') => k v g'
    | (Raise e, g') => (Raise e, g')
    end.

(** Lookup of a module-level name. *)
Definition read_global {A : Type} (f : globals -> A) : py A :=
  fun g => (Return (f g), g).

(** [try: body except Exception as e: handler e].  All four exception
    classes of [exn_class] derive from [Exception]. *)
Definition try_except {A : Type} (body : py A) (handler : exn -> py A) : py A :=
  fun g =>
    match body g with
    | (Return v, g') => (Return v, g')
    | (Raise e, g') => handler e g'
    end.

Declare Scope py_scope.
Delimit Scope py_scope with py.
Notation "x <- m ;; k" := (bind m (fun x => k))
  (at level 61, m at next level, right associativity) : py_scope.
Local Open Scope py_scope.

(** ** Pydantic models of the module *)

(** [ValidationInfo]: only [field_name] is read. *)
Record ValidationInfo : Type := mk_info { field_name : string }.

Record ErrorResponse : Type :=
  mk_ErrorResponse { error : string; details : option string }.

(** What a [raise] statement may be handed: an exception instance, or some
    other object (here an [ErrorResponse] model instance). *)
Inductive pyobj : Type :=
| ObjExn (e : exn)
| ObjErrorResponse (r : ErrorResponse).

(** [raise o]: an object that does not derive from [BaseException] makes
    the statement itself fail with a [TypeError]. *)
Definition py_raise {A : Type} (o : pyobj) : py A :=
  match o with
  | ObjExn e => raise e
  | ObjErrorResponse _ => raise (mk_exn TypeError msg_raise_non_exception)
  end.

Module MathsInput.

Record t : Type := mk { a : Z; b : Z }.

(** [validate_integers(cls, v, info)] *)
Definition validate_integers (v : pyval) (info : ValidationInfo) : py pyval :=
  if negb (isinstance_int v)
  then raise (mk_exn ValueError (field_name info ++ " must be an integer")%string)
  else ret v.

End MathsInput.

Module MathsResult.

Record t : Type := mk { result : Z; operation : string }.

(** [validate_result(self)] *)
Definition validate_result (self : t) : py t :=
  limit <- read_global CHARACTER_LIMIT ;;
  if limit <? result self
  then raise (mk_exn ValueError "Result exceeds character limit")
  else ret self.

End MathsResult.

(** [v == 0] on a Python value. *)
Definition py_eq_zero (v : pyval) : bool :=
  match v with
  | PyInt z => z =? 0
  | PyBool b => negb b
  | PyFloat q => Qeq_bool q 0
  | PyStr _ | PyNone => false
  end.

Module DivisionInput.

Record t : Type := mk { a : Z; b : Z }.

(** [validate_divisor(cls, v, info)] *)
Definition validate_divisor (v : pyval) (info : ValidationInfo) : py pyval :=
  if py_eq_zero v
  then raise (mk_exn ValueError "Division by zero is not allowed")
  else ret v.

End DivisionInput.

(** ** Arithmetic of the interpreter *)

(** [a // b] on [int]. *)
Definition py_floordiv (a b : Z) : py Z :=
  if b =? 0 then raise (mk_exn ZeroDivisionError msg_int_div_zero)
  else ret (a / b).

(** Conversion of an [int] to [float] overflows when the value rounds to
    [2^1024] or beyond. *)
Definition float_overflows (z : Z) : bool :=
  2 ^ 1024 - 2 ^ 970 <=? Z.abs z.

(** An idealised platform, for the places where a concrete one is needed:
    its [pow] is exact.  It agrees with a real platform wherever the real
    result is exact, as for [pow(2.0, -1.0) = 0.5]. *)
Definition exact_libm_pow (a b : Z) : Q := / inject_Z (a ^ (- b)).

Section Platform.

(** [libm_pow a b]: the binary64 value, given as the rational it denotes,
    that the C library's [pow] returns on [float(a)] and [float(b)] for
    [a <> 0] and [b < 0].  The library is no part of the module, so its
    result is a parameter. *)
Variable libm_pow : Z -> Z -> Q.

(** [a ** b] on [int]: an exact [int] for [b >= 0]; for [b < 0] both
    operands are converted to [float] and the result is the [float] that
    the platform's [pow] returns on them. *)
Definition py_pow (a b : Z) : py pyval :=
  if 0 <=? b then ret (PyInt (a ^ b))
  else if float_overflows a || float_overflows b
  then raise (mk_exn OverflowError msg_int_too_large)
  else if a =? 0
  then raise (mk_exn ZeroDivisionError msg_zero_neg_power)
  else ret (PyFloat (libm_pow a b)).

(** [v > n] for an [int] [n]. *)
Definition py_gt (v : pyval) (n : Z) : py bool :=
  match v with
  | PyInt z => ret (n <? z)
  | PyBool b => ret (n <? (if b then 1 else 0))
  | PyFloat q => ret (negb (Qle_bool q (inject_Z n)))
  | PyStr _ => raise (mk_exn TypeError msg_gt_str_int)
  | PyNone => raise (mk_exn TypeError msg_gt_none_int)
  end.

(** ** Helpers of the server *)

Definition _make_api_request (operation : string) (a b : Z) : py Z :=
  if (operation =? "add")%string then ret (a + b)
  else if (operation =? "subtract")%string then ret (a - b)
  else if (operation =? "multiply")%string then ret (a * b)
  else if (operation =? "divide")%string then py_floordiv a b
  else raise (mk_exn ValueError "Unknown operation").

Definition _handle_api_error (e : exn) : ErrorResponse :=
  {| error := exn_msg e;
     details := Some "An error occurred during computation" |}.

(** The [except] clause shared by the five tools:
    [raise _handle_api_error(e)]. *)
Definition except_clause {A : Type} (e : exn) : py A :=
  py_raise (ObjErrorResponse (_handle_api_error e)).

(** ** The tools *)

(** Body of the [try] block of the four evaluator tools. *)
Definition evaluator_try (operation : string) (a b : Z) : py pyval :=
  result <- _make_api_request operation a b ;;
  ret (PyInt result).

Definition maths_add_numbers (a b : Z) : py pyval :=
  try_except (evaluator_try "add" a b) except_clause.

Definition maths_subtract_numbers (a b : Z) : py pyval :=
  try_except (evaluator_try "subtract" a b) except_clause.

Definition maths_multiply_numbers (a b : Z) : py pyval :=
  try_except (evaluator_try "multiply" a b) except_clause.

Definition maths_divide_numbers (a b : Z) : py pyval :=
  try_except (evaluator_try "divide" a b) except_clause.

(** Body of the [try] block of [maths_power_numbers]. *)
Definition power_try (a b : Z) : py pyval :=
  result <- py_pow a b ;;
  limit <- read_global CHARACTER_LIMIT ;;
  too_large <- py_gt result limit ;;
  if (too_large : bool)
  then raise (mk_exn ValueError "Result exceeds character limit")
  else ret result.

Definition maths_power_numbers (a b : Z) : py pyval :=
  try_except (power_try a b) except_clause.

(** ** Serving a sequence of invocations *)

Inductive tool : Type := Add | Subtract | Multiply | Divide | Power.

Definition invoke (t : tool) (a b : Z) : py pyval :=
  match t with
  | Add => maths_add_numbers a b
  | Subtract => maths_subtract_numbers a b
  | Multiply => maths_multiply_numbers a b
  | Divide => maths_divide_numbers a b
  | Power => maths_power_numbers a b
  end.

Record call : Type := mk_call { call_tool : tool; call_a : Z; call_b : Z }.

Definition invoke_call (c : call) : py pyval :=
  invoke (call_tool c) (call_a c) (call_b c).

(** Invocations handled one after the other on the same module; a raised
    exception ends that invocation only. *)
Fixpoint serve (cs : list call) (g : globals) : list (outcome pyval) * globals :=
  match cs with
  | [] => ([], g)
  | c :: rest =>
      let (o, g') := invoke_call c g in
      let (os, g'') := serve rest g' in
      (o :: os, g'')
  end.

(** What the caller of one invocation gets back. *)
Definition run {A : Type} (m : py A) (g : globals) : outcome A := fst (m g).

(** A computation that hands the globals back as it found them. *)
Definition preserves_globals {A : Type} (m : py A) : Prop :=
  forall g, snd (m g) = g.

Create HintDb globals_db.

(** ** Basic facts about the monad and the shared [except] clause *)

Lemma bind_ret {A B : Type} (v : A) (k : A -> py B) (g : globals) :
  bind (ret v) k g = k v g.
Proof. reflexivity. Qed.

Lemma bind_raise {A B : Type} (e : exn) (k : A -> py B) (g : globals) :
  bind (raise e) k g = (Raise e, g).
Proof. reflexivity. Qed.

Lemma try_except_return {A : Type} (body : py A) (h : exn -> py A)
      (g g' : globals) (v : A) :
  body g = (Return v, g') -> try_except body h g = (Return v, g').
Proof. intros Hbody. unfold try_except. now rewrite Hbody. Qed.

(** Whatever the [try] block raised, the [except] clause ends in the
    [TypeError] of [raise] applied to a model instance. *)
Lemma try_except_clause_raise {A : Type} (body : py A) (g g' : globals) (e : exn) :
  body g = (Raise e, g') ->
  try_except body except_clause g
  = (Raise (mk_exn TypeError msg_raise_non_exception), g').
Proof. intros Hbody. unfold try_except. now rewrite Hbody. Qed.

(** The evaluator on its four operation names. *)
Lemma make_api_request_add (a b : Z) (g : globals) :
  _make_api_request "add" a b g = (Return (a + b), g).
Proof. reflexivity. Qed.

Lemma make_api_request_subtract (a b : Z) (g : globals) :
  _make_api_request "subtract" a b g = (Return (a - b), g).
Proof. reflexivity. Qed.

Lemma make_api_request_multiply (a b : Z) (g : globals) :
  _make_api_request "multiply" a b g = (Return (a * b), g).
Proof. reflexivity. Qed.

Lemma make_api_request_divide (a b : Z) (g : globals) :
  _make_api_request "divide" a b g = py_floordiv a b g.
Proof. reflexivity. Qed.

Lemma py_floordiv_nonzero (a b : Z) (g : globals) :
  b <> 0 -> py_floordiv a b g = (Return (a / b), g).
Proof.
  intros Hb. unfold py_floordiv.
  destruct (Z.eqb_spec b 0) as [E | _]; [contradiction | reflexivity].
Qed.

Lemma py_floordiv_zero (a : Z) (g : globals) :
  py_floordiv a 0 g = (Raise (mk_exn ZeroDivisionError msg_int_div_zero), g).
Proof. reflexivity. Qed.

(** [Z.div] is the floor of the rational quotient. *)
Lemma Zdiv_Qfloor (a b : Z) :
  b <> 0 -> a / b = Qfloor (inject_Z a / inject_Z b).
Proof.
  intros Hb. destruct b as [| p | p]; [contradiction | |].
  - unfold Qdiv, Qinv, Qmult, Qfloor, inject_Z; simpl.
    now rewrite Z.mul_1_r.
  - unfold Qdiv, Qinv, Qmult, Qfloor, inject_Z; simpl.
    rewrite <- (Z.div_opp_opp (a * -1) (Z.pos p)) by discriminate.
    f_equal; lia.
Qed.

(** ** C1: add, subtract and multiply *)

(** C1 as stated fails: [add(500, 501)] has a result of magnitude 1001 and
    the tool returns it; no error is raised. *)
Lemma C1_add_500_501_returned :
  1000 < Z.abs (500 + 501)
  /\ run (maths_add_numbers 500 501) module_init = Return (PyInt 1001)
  /\ ~ (exists e, run (maths_add_numbers 500 501) module_init = Raise e).
Proof.
  split; [reflexivity |]. split; [reflexivity |].
  intros [e He]. discriminate He.
Qed.

(** C1 (amended): for all integers [a], [b] the tools add, subtract and
    multiply return [a + b], [a - b] and [a * b] whatever the magnitude of
    the result, and leave the module globals as they were; none of them
    compares its result with the limit. *)
Theorem C1_arithmetic_tools_uncapped (a b : Z) (g : globals) :
  maths_add_numbers a b g = (Return (PyInt (a + b)), g)
  /\ maths_subtract_numbers a b g = (Return (PyInt (a - b)), g)
  /\ maths_multiply_numbers a b g = (Return (PyInt (a * b)), g).
Proof. repeat split. Qed.

(** ** C2: the error normalizer at the tool boundary *)

(** C2 at [divide(1, 0)]: the [try] block raises [ZeroDivisionError], the
    handler builds the [ErrorResponse] with that message and the fixed
    detail string, but the [except] clause raises that object instead of
    returning it, so what leaves the tool is a bare [TypeError]. *)
Theorem C2_divide_1_0_escapes_as_TypeError :
  evaluator_try "divide" 1 0 module_init
  = (Raise (mk_exn ZeroDivisionError msg_int_div_zero), module_init)
  /\ _handle_api_error (mk_exn ZeroDivisionError msg_int_div_zero)
     = {| error := msg_int_div_zero;
          details := Some "An error occurred during computation" |}
  /\ maths_divide_numbers 1 0 module_init
     = (Raise (mk_exn TypeError msg_raise_non_exception), module_init).
Proof. repeat split. Qed.

(** ** C3: division by zero *)

(** C3 as stated fails on its message: at [divide(7, 0)] neither the
    exception that leaves the tool nor the [ErrorResponse] the handler
    built carries "Division by zero is not allowed". *)
Lemma C3_divide_7_0_other_message :
  ~ (exists e, run (maths_divide_numbers 7 0) module_init = Raise e
               /\ exn_msg e = "Division by zero is not allowed")
  /\ run (evaluator_try "divide" 7 0) module_init
     = Raise (mk_exn ZeroDivisionError msg_int_div_zero)
  /\ error (_handle_api_error (mk_exn ZeroDivisionError msg_int_div_zero))
     <> "Division by zero is not allowed".
Proof.
  split; [| split; [reflexivity | discriminate]].
  intros [e [He Hmsg]]. cbv in He. injection He as <-. discriminate Hmsg.
Qed.

(** C3 (amended): for every integer [a], [divide(a, 0)] never returns a
    numeric result: the evaluator's [a // 0] raises [ZeroDivisionError]
    with the interpreter's message.  "Division by zero is not allowed" is
    the message of [DivisionInput.validate_divisor] on a zero divisor, a
    validator the divide tool does not call. *)
Theorem C3_divide_by_zero_never_numeric (a : Z) (g : globals) (info : ValidationInfo) :
  (forall v, run (maths_divide_numbers a 0) g <> Return v)
  /\ _make_api_request "divide" a 0 g
     = (Raise (mk_exn ZeroDivisionError msg_int_div_zero), g)
  /\ DivisionInput.validate_divisor (PyInt 0) info g
     = (Raise (mk_exn ValueError "Division by zero is not allowed"), g).
Proof.
  split; [| split; reflexivity].
  intros v Hv. discriminate Hv.
Qed.

(** ** C4: floor division *)

(** C4: for every integer [a] and nonzero integer [b], [divide(a, b)]
    returns the floor of the exact quotient [a / b]: the integer [q] with
    [q <= a/b < q + 1] over the rationals. *)
Theorem C4_divide_is_floor (a b : Z) (g : globals) :
  b <> 0 ->
  maths_divide_numbers a b g
  = (Return (PyInt (Qfloor (inject_Z a / inject_Z b))), g)
  /\ (inject_Z (Qfloor (inject_Z a / inject_Z b)) <= inject_Z a / inject_Z b)%Q
  /\ (inject_Z a / inject_Z b < inject_Z (Qfloor (inject_Z a / inject_Z b) + 1))%Q.
Proof.
  intros Hb. split; [| split].
  - unfold maths_divide_numbers. apply try_except_return.
    unfold evaluator_try, bind.
    rewrite make_api_request_divide, (py_floordiv_nonzero a b g Hb).
    unfold ret. now rewrite (Zdiv_Qfloor a b Hb).
  - apply Qfloor_le.
  - apply Qlt_floor.
Qed.

(** [divide(7, 2) == 3] and [divide(-7, 2) == -4], from the theorem. *)
Lemma C4_divide_is_floor_witness :
  (2 <> 0)
  /\ maths_divide_numbers 7 2 module_init = (Return (PyInt 3), module_init)
  /\ maths_divide_numbers (-7) 2 module_init = (Return (PyInt (-4)), module_init).
Proof.
  assert (H2 : 2 <> 0) by discriminate.
  split; [exact H2 |]. split.
  - exact (proj1 (C4_divide_is_floor 7 2 module_init H2)).
  - exact (proj1 (C4_divide_is_floor (-7) 2 module_init H2)).
Defined.

(** ** The power tool *)

(** For a non-negative exponent the [try] block either returns the exact
    power or fails the limit check, according to [limit < a ^ b]. *)
Lemma power_try_nonneg (a b : Z) :
  0 <= b ->
  power_try a b module_init
  = if 1000 <? a ^ b
    then (Raise (mk_exn ValueError "Result exceeds character limit"), module_init)
    else (Return (PyInt (a ^ b)), module_init).
Proof.
  intros Hb. unfold power_try, py_pow.
  replace (0 <=? b) with true by (symmetry; apply Z.leb_le; exact Hb).
  rewrite bind_ret. unfold bind, read_global, py_gt, ret.
  change (CHARACTER_LIMIT module_init) with 1000.
  destruct (1000 <? a ^ b); reflexivity.
Qed.






(** A tool returns a value only when its [try] block returned it. *)
Lemma try_except_clause_returns {A : Type} (body : py A) (g g' : globals) (v : A) :
  try_except body except_clause g = (Return v, g') -> body g = (Return v, g').
Proof.
  unfold try_except.
  destruct (body g) as [[w | e] g1]; [congruence | discriminate].
Qed.

(** ** C5: power with a non-negative exponent *)

(** C5 (amended): for all integers [a], [b] with [b >= 0], [power(a, b)]
    returns [a ** b] when [a ** b <= 1000], however negative; when
    [a ** b > 1000] it returns no value: the limit check fails with
    "Result exceeds character limit", the message the handler puts in the
    [ErrorResponse]. *)
Theorem C5_power_nonneg_exponent (a b : Z) :
  0 <= b ->
  (a ^ b <= 1000 ->
   maths_power_numbers a b module_init = (Return (PyInt (a ^ b)), module_init))
  /\ (1000 < a ^ b ->
      power_try a b module_init
      = (Raise (mk_exn ValueError "Result exceeds character limit"), module_init)
      /\ error (_handle_api_error
                  (mk_exn ValueError "Result exceeds character limit"))
         = "Result exceeds character limit"
      /\ forall v, run (maths_power_numbers a b) module_init <> Return v).
Proof.
  intros Hb. pose proof (power_try_nonneg a b Hb) as Htry. split.
  - intros Hle. unfold maths_power_numbers. apply try_except_return.
    rewrite Htry.
    now replace (1000 <? a ^ b) with false by (symmetry; apply Z.ltb_ge; lia).
  - intros Hgt.
    replace (1000 <? a ^ b) with true in Htry
      by (symmetry; apply Z.ltb_lt; lia).
    split; [exact Htry |]. split; [reflexivity |].
    intros v. unfold run, maths_power_numbers.
    rewrite (try_except_clause_raise _ _ _ _ Htry). discriminate.
Qed.

(** ** C6: the limit check is one-sided *)

(** C6: the limit check fires exactly when the result is strictly greater
    than 1000, in the power tool and in [MathsResult.validate_result]; a
    result below -1000 passes it and is returned as a value. *)
Theorem C6_limit_check_one_sided (a b : Z) (r : MathsResult.t) :
  0 <= b ->
  (run (power_try a b) module_init
   = Raise (mk_exn ValueError "Result exceeds character limit")
   <-> 1000 < a ^ b)
  /\ (a ^ b < -1000 ->
      run (maths_power_numbers a b) module_init = Return (PyInt (a ^ b)))
  /\ (run (MathsResult.validate_result r) module_init
      = Raise (mk_exn ValueError "Result exceeds character limit")
      <-> 1000 < MathsResult.result r)
  /\ (MathsResult.result r < -1000 ->
      run (MathsResult.validate_result r) module_init = Return r).
Proof.
  intros Hb. pose proof (power_try_nonneg a b Hb) as Htry.
  split; [| split; [| split]].
  - unfold run. rewrite Htry.
    destruct (Z.ltb_spec 1000 (a ^ b)) as [Hlt | Hge]; simpl.
    + split; [intros _; exact Hlt | reflexivity].
    + split; [discriminate | lia].
  - intros Hneg. unfold run, maths_power_numbers.
    rewrite (try_except_return _ _ module_init module_init (PyInt (a ^ b)));
      [reflexivity |].
    rewrite Htry.
    now replace (1000 <? a ^ b) with false by (symmetry; apply Z.ltb_ge; lia).
  - unfold run, MathsResult.validate_result, bind, read_global.
    change (CHARACTER_LIMIT module_init) with 1000.
    destruct (Z.ltb_spec 1000 (MathsResult.result r)) as [Hlt | Hge]; simpl.
    + split; [intros _; exact Hlt | reflexivity].
    + split; [discriminate | lia].
  - intros Hneg.
    unfold run, MathsResult.validate_result, bind, read_global.
    change (CHARACTER_LIMIT module_init) with 1000.
    now replace (1000 <? MathsResult.result r) with false
      by (symmetry; apply Z.ltb_ge; lia).
Qed.

(** ** C7: unknown operation names *)

(** C7: for every operation name other than add, subtract, multiply and
    divide, the evaluator raises [ValueError("Unknown operation")] and
    yields no value. *)
Theorem C7_unknown_operation (operation : string) (a b : Z) (g : globals) :
  operation <> "add" -> operation <> "subtract" ->
  operation <> "multiply" -> operation <> "divide" ->
  _make_api_request operation a b g
  = (Raise (mk_exn ValueError "Unknown operation"), g).
Proof.
  intros Hadd Hsub Hmul Hdiv. unfold _make_api_request.
  apply String.eqb_neq in Hadd, Hsub, Hmul, Hdiv.
  now rewrite Hadd, Hsub, Hmul, Hdiv.
Qed.

(** The evaluator does not know "power". *)
Lemma C7_unknown_operation_witness :
  _make_api_request "power" 2 5 module_init
  = (Raise (mk_exn ValueError "Unknown operation"), module_init).
Proof.
  apply (C7_unknown_operation "power" 2 5 module_init); discriminate.
Defined.

(** ** C9: no invocation changes the module globals *)

Lemma preserves_ret {A : Type} (v : A) : preserves_globals (ret v).
Proof. intros g. reflexivity. Qed.

Lemma preserves_raise {A : Type} (e : exn) : preserves_globals (@raise A e).
Proof. intros g. reflexivity. Qed.

Lemma preserves_read_global {A : Type} (f : globals -> A) :
  preserves_globals (read_global f).
Proof. intros g. reflexivity. Qed.

Lemma preserves_bind {A B : Type} (m : py A) (k : A -> py B) :
  preserves_globals m -> (forall v, preserves_globals (k v)) ->
  preserves_globals (bind m k).
Proof.
  intros Hm Hk g. unfold bind. specialize (Hm g).
  destruct (m g) as [[v | e] g1]; simpl in Hm; subst g1.
  - apply Hk.
  - reflexivity.
Qed.

Lemma preserves_try_except {A : Type} (body : py A) (h : exn -> py A) :
  preserves_globals body -> (forall e, preserves_globals (h e)) ->
  preserves_globals (try_except body h).
Proof.
  intros Hm Hh g. unfold try_except. specialize (Hm g).
  destruct (body g) as [[v | e] g1]; simpl in Hm; subst g1.
  - reflexivity.
  - apply Hh.
Qed.

Lemma preserves_if {A : Type} (c : bool) (m1 m2 : py A) :
  preserves_globals m1 -> preserves_globals m2 ->
  preserves_globals (if c then m1 else m2).
Proof. now destruct c. Qed.

Lemma preserves_except_clause {A : Type} (e : exn) :
  preserves_globals (@except_clause A e).
Proof. intros g. reflexivity. Qed.

#[local] Hint Resolve preserves_ret preserves_raise preserves_read_global
  preserves_bind preserves_try_except preserves_if preserves_except_clause
  : globals_db.

Lemma preserves_py_floordiv (a b : Z) : preserves_globals (py_floordiv a b).
Proof. unfold py_floordiv. auto with globals_db. Qed.

Lemma preserves_py_pow (a b : Z) : preserves_globals (py_pow a b).
Proof. unfold py_pow. auto 6 with globals_db. Qed.

Lemma preserves_py_gt (v : pyval) (n : Z) : preserves_globals (py_gt v n).
Proof. destruct v; simpl; auto with globals_db. Qed.

#[local] Hint Resolve preserves_py_floordiv preserves_py_pow preserves_py_gt
  : globals_db.

Lemma preserves_make_api_request (operation : string) (a b : Z) :
  preserves_globals (_make_api_request operation a b).
Proof. unfold _make_api_request. auto 8 with globals_db. Qed.

#[local] Hint Resolve preserves_make_api_request : globals_db.

Lemma preserves_evaluator_try (operation : string) (a b : Z) :
  preserves_globals (evaluator_try operation a b).
Proof. unfold evaluator_try. auto with globals_db. Qed.

Lemma preserves_power_try (a b : Z) : preserves_globals (power_try a b).
Proof.
  unfold power_try.
  apply preserves_bind; [auto with globals_db | intros result].
  apply preserves_bind; [auto with globals_db | intros limit].
  apply preserves_bind; [auto with globals_db | intros too_large].
  auto with globals_db.
Qed.

#[local] Hint Resolve preserves_evaluator_try preserves_power_try : globals_db.

Lemma preserves_invoke (t : tool) (a b : Z) : preserves_globals (invoke t a b).
Proof.
  destruct t; simpl;
    unfold maths_add_numbers, maths_subtract_numbers, maths_multiply_numbers,
      maths_divide_numbers, maths_power_numbers;
    auto with globals_db.
Qed.

Lemma serve_globals (cs : list call) (g : globals) : snd (serve cs g) = g.
Proof.
  induction cs as [| c rest IH]; simpl; [reflexivity |].
  pose proof (preserves_invoke (call_tool c) (call_a c) (call_b c) g) as Hc.
  unfold invoke_call.
  destruct (invoke (call_tool c) (call_a c) (call_b c) g) as [o g1].
  simpl in Hc; subst g1.
  specialize IH. destruct (serve rest g) as [os g2]. exact IH.
Qed.

Lemma serve_cons (c : call) (rest : list call) (g : globals) :
  fst (serve (c :: rest) g) = run (invoke_call c) g :: fst (serve rest g).
Proof.
  simpl. unfold run.
  pose proof (preserves_invoke (call_tool c) (call_a c) (call_b c) g) as Hc.
  unfold invoke_call.
  destruct (invoke (call_tool c) (call_a c) (call_b c) g) as [o g1].
  simpl in Hc; subst g1.
  destruct (serve rest g) as [os g2]. reflexivity.
Qed.

Lemma serve_app (xs ys : list call) (g : globals) :
  fst (serve (xs ++ ys)%list g) = (fst (serve xs g) ++ fst (serve ys g))%list.
Proof.
  induction xs as [| c rest IH]; [reflexivity |].
  rewrite <- app_comm_cons, !serve_cons, IH. reflexivity.
Qed.

(** The four evaluator tools do not look at the globals at all. *)
Lemma evaluator_tools_ignore_globals (t : tool) (a b : Z) (g g' : globals) :
  t <> Power -> run (invoke t a b) g = run (invoke t a b) g'.
Proof.
  intros Ht. destruct t; try reflexivity.
  - unfold run; simpl. unfold maths_divide_numbers, try_except, evaluator_try,
      bind, _make_api_request, py_floordiv; simpl.
    destruct (b =? 0); reflexivity.
  - contradiction.
Qed.

(** C9 (amended): no invocation changes the module globals, so the
    outcome of an invocation is the same wherever it stands in a sequence
    of invocations: invoked again with the same inputs, after any other
    invocations, it yields the same value or the same error.  The four
    evaluator tools read no global; power does read one,
    [CHARACTER_LIMIT], which nothing writes. *)
Theorem C9_invocations_stateless
        (before between : list call) (c : call) (g g' : globals) :
  snd (invoke_call c g) = g
  /\ snd (serve (before ++ c :: between ++ [c])%list g) = g
  /\ fst (serve (before ++ c :: between ++ [c])%list g)
     = (fst (serve before g) ++ run (invoke_call c) g
          :: fst (serve between g) ++ [run (invoke_call c) g])%list
  /\ (call_tool c = Power
      \/ run (invoke_call c) g = run (invoke_call c) g').
Proof.
  split; [apply preserves_invoke |]. split; [apply serve_globals |]. split.
  - rewrite serve_app, serve_cons, serve_app, serve_cons. reflexivity.
  - destruct (call_tool c) eqn:Ht; [right | right | right | right | left];
      try reflexivity;
      unfold invoke_call; rewrite Ht;
      apply evaluator_tools_ignore_globals; discriminate.
Qed.

(** ** C10: power with a negative exponent *)


(** ** What leaves a tool *)

(** A [try] block that keeps the globals, under the shared [except]
    clause, either returns its value or ends in the [TypeError] of the
    clause. *)
Lemma try_except_clause_outcomes {A : Type} (body : py A) (g : globals) :
  preserves_globals body ->
  (exists v, body g = (Return v, g)
             /\ try_except body except_clause g = (Return v, g))
  \/ ((exists e, body g = (Raise e, g))
      /\ try_except body except_clause g
         = (Raise (mk_exn TypeError msg_raise_non_exception), g)).
Proof.
  intros Hp. specialize (Hp g). unfold try_except.
  destruct (body g) as [[v | e] g1]; simpl in Hp; subst g1.
  - left. exists v. split; reflexivity.
  - right. split; [exists e |]; reflexivity.
Qed.

Lemma tool_try_block (t : tool) (a b : Z) :
  exists body, preserves_globals body
               /\ invoke t a b = try_except body except_clause.
Proof.
  destruct t.
  - exists (evaluator_try "add" a b). split; [auto with globals_db | reflexivity].
  - exists (evaluator_try "subtract" a b).
    split; [auto with globals_db | reflexivity].
  - exists (evaluator_try "multiply" a b).
    split; [auto with globals_db | reflexivity].
  - exists (evaluator_try "divide" a b).
    split; [auto with globals_db | reflexivity].
  - exists (power_try a b). split; [auto with globals_db | reflexivity].
Qed.

(** X1: whatever the tool and its operands, an invocation either returns a
    value or raises an exception of class [TypeError] with the message
    "exceptions must derive from BaseException": the exception raised is
    the same whichever failure happened inside the [try] block.  The
    module globals are as before in both cases. *)
Theorem tool_raises_only_TypeError (t : tool) (a b : Z) (g : globals) :
  (exists v, invoke t a b g = (Return v, g))
  \/ invoke t a b g = (Raise (mk_exn TypeError msg_raise_non_exception), g).
Proof.
  destruct (tool_try_block t a b) as (body & Hp & ->).
  destruct (try_except_clause_outcomes body g Hp) as [(v & _ & Hv) | [_ Hr]].
  - left. exists v. exact Hv.
  - right. exact Hr.
Qed.

(** ** C8: operands that are not integers *)


Lemma string_length_append (s t : string) :
  String.length (s ++ t) = (String.length s + String.length t)%nat.
Proof. induction s as [| c s IH]; simpl; [reflexivity | now rewrite IH]. Qed.

(** A common suffix can be cancelled. *)
Lemma string_append_inv_tail (s1 s2 t : string) :
  (s1 ++ t = s2 ++ t)%string -> s1 = s2.
Proof.
  revert s2. induction s1 as [| c s1 IH]; intros [| d s2] H.
  - reflexivity.
  - apply (f_equal String.length) in H. simpl in H.
    rewrite string_length_append in H. lia.
  - apply (f_equal String.length) in H. simpl in H.
    rewrite string_length_append in H. lia.
  - simpl in H. injection H as -> H. f_equal. apply IH. exact H.
Qed.




(** ** The evaluator *)

(** X2: [_make_api_request] fails in exactly two situations: the operation
    name is none of the four it knows, which gives [ValueError], or the
    operation is divide and the divisor is 0, which gives
    [ZeroDivisionError]. *)
Theorem make_api_request_failures (operation : string) (a b : Z) (g : globals) :
  ((exists e, run (_make_api_request operation a b) g = Raise e)
   <-> (operation <> "add" /\ operation <> "subtract"
        /\ operation <> "multiply" /\ operation <> "divide")
       \/ (operation = "divide" /\ b = 0))
  /\ (forall e, run (_make_api_request operation a b) g = Raise e ->
      exn_type e = (if (operation =? "divide")%string
                    then ZeroDivisionError else ValueError)).
Proof.
  unfold run, _make_api_request, py_floordiv.
  destruct (String.eqb_spec operation "add") as [-> | Hadd].
  { simpl. split; [split |].
    - intros [e He]. discriminate He.
    - intros [(H & _) | (H & _)]; [contradiction | discriminate].
    - intros e He. discriminate He. }
  destruct (String.eqb_spec operation "subtract") as [-> | Hsub].
  { simpl. split; [split |].
    - intros [e He]. discriminate He.
    - intros [(_ & H & _) | (H & _)]; [contradiction | discriminate].
    - intros e He. discriminate He. }
  destruct (String.eqb_spec operation "multiply") as [-> | Hmul].
  { simpl. split; [split |].
    - intros [e He]. discriminate He.
    - intros [(_ & _ & H & _) | (H & _)]; [contradiction | discriminate].
    - intros e He. discriminate He. }
  destruct (String.eqb_spec operation "divide") as [-> | Hdiv].
  { destruct (Z.eqb_spec b 0) as [-> | Hb]; simpl; split; try split.
    - intros _. right. split; reflexivity.
    - intros _. eexists; reflexivity.
    - intros e He. injection He as <-. reflexivity.
    - intros [e He]. discriminate He.
    - intros [(_ & _ & _ & H) | (_ & H)]; contradiction.
    - intros e He. discriminate He. }
  simpl. split; [split |].
  - intros _. left. repeat split; assumption.
  - intros _. eexists; reflexivity.
  - intros e He. injection He as <-. reflexivity.
Qed.

(** X3: each of the four evaluator tools returns an [int] and keeps the
    globals, on every input but one: divide with divisor 0, where no value
    is returned. *)
Theorem evaluator_tools_total_but_divide_zero
        (t : tool) (a b : Z) (g : globals) :
  t <> Power ->
  ((exists z, invoke t a b g = (Return (PyInt z), g))
   <-> ~ (t = Divide /\ b = 0)).
Proof.
  intros Ht. destruct t; try contradiction; simpl.
  - split; [intros _ [H _]; discriminate H | intros _; eexists; reflexivity].
  - split; [intros _ [H _]; discriminate H | intros _; eexists; reflexivity].
  - split; [intros _ [H _]; discriminate H | intros _; eexists; reflexivity].
  - unfold maths_divide_numbers, try_except, evaluator_try, bind.
    rewrite make_api_request_divide. unfold py_floordiv.
    destruct (Z.eqb_spec b 0) as [-> | Hb]; simpl.
    + split; [intros [z Hz]; discriminate Hz | intros H; exfalso; apply H].
      split; reflexivity.
    + split; [intros _ [_ H]; contradiction | intros _; eexists; reflexivity].
Qed.

(** ** How the operations compose *)

(** X4: subtract undoes add and add undoes subtract, for all integers and
    whatever their size: feeding the sum [add(a, b)] and [b] to subtract
    gives back [a], and feeding the difference [subtract(a, b)] and [b] to
    add gives back [a]. *)
Theorem add_subtract_inverse (a b : Z) (g : globals) :
  (exists s, maths_add_numbers a b g = (Return (PyInt s), g)
             /\ maths_subtract_numbers s b g = (Return (PyInt a), g))
  /\ (exists d, maths_subtract_numbers a b g = (Return (PyInt d), g)
                /\ maths_add_numbers d b g = (Return (PyInt a), g)).
Proof.
  split.
  - exists (a + b). split; [reflexivity |].
    change (maths_subtract_numbers (a + b) b g)
      with (Return (PyInt (a + b - b)), g).
    do 3 f_equal. lia.
  - exists (a - b). split; [reflexivity |].
    change (maths_add_numbers (a - b) b g)
      with (Return (PyInt (a - b + b)), g).
    do 3 f_equal. lia.
Qed.

(** X5: divide undoes multiply for a nonzero factor: feeding the product
    [multiply(a, b)] and [b] to divide gives back [a] exactly. *)
Theorem multiply_divide_inverse (a b : Z) (g : globals) :
  b <> 0 ->
  exists p, maths_multiply_numbers a b g = (Return (PyInt p), g)
            /\ maths_divide_numbers p b g = (Return (PyInt a), g).
Proof.
  intros Hb. exists (a * b). split; [reflexivity |].
  unfold maths_divide_numbers. apply try_except_return.
  unfold evaluator_try, bind.
  rewrite make_api_request_divide, (py_floordiv_nonzero (a * b) b g Hb).
  unfold ret. now rewrite Z.div_mul.
Qed.

Lemma multiply_divide_inverse_witness :
  exists p, maths_multiply_numbers (-7) 2 module_init
            = (Return (PyInt p), module_init)
            /\ maths_divide_numbers p 2 module_init
               = (Return (PyInt (-7)), module_init).
Proof.
  apply (multiply_divide_inverse (-7) 2 module_init). discriminate.
Defined.

(** Floor division never yields a quotient larger in magnitude than the
    dividend. *)
Lemma Zdiv_abs_le (a b : Z) : b <> 0 -> Z.abs (a / b) <= Z.abs a.
Proof.
  assert (Hpos : forall x y, 0 < y -> Z.abs (x / y) <= Z.abs x).
  { intros x y Hy.
    pose proof (Z.mul_div_le x y Hy) as Hlo.
    pose proof (Z.mul_succ_div_gt x y Hy) as Hhi.
    nia. }
  intros Hb. destruct (Z.lt_trichotomy b 0) as [Hneg | [-> | Hgt]].
  - rewrite <- (Z.div_opp_opp a b Hb), <- (Z.abs_opp a).
    apply Hpos. lia.
  - contradiction.
  - apply Hpos. exact Hgt.
Qed.

(** X6: for a nonzero divisor, the quotient divide returns is never larger
    in magnitude than the dividend, whatever the signs. *)
Theorem divide_never_grows (a b : Z) (g : globals) :
  b <> 0 ->
  exists q, maths_divide_numbers a b g = (Return (PyInt q), g)
            /\ Z.abs q <= Z.abs a.
Proof.
  intros Hb. exists (a / b). split; [| apply Zdiv_abs_le; exact Hb].
  unfold maths_divide_numbers. apply try_except_return.
  unfold evaluator_try, bind.
  now rewrite make_api_request_divide, (py_floordiv_nonzero a b g Hb).
Qed.

(** [divide(1, -3) = -1]: the floor moves away from zero, up to the
    magnitude of the dividend. *)
Lemma divide_never_grows_witness :
  exists q, maths_divide_numbers 1 (-3) module_init
            = (Return (PyInt q), module_init)
            /\ Z.abs q <= Z.abs 1.
Proof.
  apply (divide_never_grows 1 (-3) module_init). discriminate.
Defined.

(** ** More on the power tool *)

(** The [try] block of power for a non-negative exponent, under any value
    of the limit. *)
Lemma power_try_nonneg_any (a b : Z) (g : globals) :
  0 <= b ->
  power_try a b g
  = if CHARACTER_LIMIT g <? a ^ b
    then (Raise (mk_exn ValueError "Result exceeds character limit"), g)
    else (Return (PyInt (a ^ b)), g).
Proof.
  intros Hb. unfold power_try, py_pow.
  replace (0 <=? b) with true by (symmetry; apply Z.leb_le; exact Hb).
  rewrite bind_ret. unfold bind, read_global, py_gt, ret.
  destruct (CHARACTER_LIMIT g <? a ^ b); reflexivity.
Qed.

(** X7: whatever power returns is within the limit from above: a returned
    [int] is [a ** b] for an exponent [b >= 0] and is at most
    [CHARACTER_LIMIT]; a returned [float] is what the platform's [pow]
    gave for an exponent [b < 0] and a nonzero base, and is at most
    [CHARACTER_LIMIT] too.  Nothing else is ever returned. *)
Theorem power_returns_within_limit (a b : Z) (g : globals) (v : pyval) :
  run (maths_power_numbers a b) g = Return v ->
  (exists z, v = PyInt z /\ 0 <= b /\ z = a ^ b /\ z <= CHARACTER_LIMIT g)
  \/ (exists q, v = PyFloat q /\ b < 0 /\ a <> 0
                /\ q = libm_pow a b
                /\ (q <= inject_Z (CHARACTER_LIMIT g))%Q).
Proof.
  intros Hret. unfold run in Hret.
  destruct (maths_power_numbers a b g) as [o g1] eqn:Htool.
  simpl in Hret; subst o.
  apply try_except_clause_returns in Htool.
  destruct (Z.leb_spec 0 b) as [Hb | Hb].
  - rewrite (power_try_nonneg_any a b g Hb) in Htool.
    destruct (Z.ltb_spec (CHARACTER_LIMIT g) (a ^ b)) as [Hlt | Hge];
      [discriminate Htool |].
    injection Htool as <- _. left. exists (a ^ b). repeat split; assumption.
  - revert Htool. unfold power_try, py_pow.
    replace (0 <=? b) with false by (symmetry; apply Z.leb_gt; exact Hb).
    destruct (float_overflows a || float_overflows b);
      [rewrite bind_raise; discriminate |].
    destruct (Z.eqb_spec a 0) as [-> | Ha];
      [rewrite bind_raise; discriminate |].
    rewrite bind_ret. unfold bind, read_global, py_gt, ret.
    destruct (Qle_bool (libm_pow a b) (inject_Z (CHARACTER_LIMIT g)))
      eqn:Hle; cbv [negb]; [| discriminate].
    intros Htool. injection Htool as <- _. right.
    exists (libm_pow a b).
    repeat split; try assumption. apply Qle_bool_iff. exact Hle.
Qed.

(** X8: with a negative base and an odd exponent power never fails, however
    large the magnitude: the result is negative, so the one-sided check
    lets it through. *)
Theorem power_negative_base_odd_exponent (a b : Z) :
  a < 0 -> 0 <= b -> Z.odd b = true ->
  a ^ b < 0
  /\ maths_power_numbers a b module_init
     = (Return (PyInt (a ^ b)), module_init).
Proof.
  intros Ha Hb Hodd.
  assert (Hneg : a ^ b < 0).
  { replace a with (- (- a)) by lia.
    rewrite Z.pow_opp_odd by (apply Z.odd_spec; exact Hodd).
    pose proof (Z.pow_pos_nonneg (- a) b ltac:(lia) Hb). lia. }
  split; [exact Hneg |].
  unfold maths_power_numbers. apply try_except_return.
  rewrite (power_try_nonneg a b Hb).
  now replace (1000 <? a ^ b) with false by (symmetry; apply Z.ltb_ge; lia).
Qed.

(** X9: power returns no value once the operands are large: a base of at
    least 2 with an exponent of at least 10, or a base above 1000 with an
    exponent of at least 1. *)
Theorem power_large_operands_fail (a b : Z) :
  (2 <= a /\ 10 <= b) \/ (1000 < a /\ 1 <= b) ->
  forall v, run (maths_power_numbers a b) module_init <> Return v.
Proof.
  intros Hlarge v.
  assert (Hb : 0 <= b) by (destruct Hlarge; lia).
  assert (Hgt : 1000 < a ^ b).
  { destruct Hlarge as [[Ha Hb10] | [Ha Hb1]].
    - pose proof (Z.pow_le_mono 2 10 a b ltac:(lia) Hb10) as Hmono.
      change (2 ^ 10) with 1024 in Hmono. lia.
    - pose proof (Z.pow_le_mono a 1 a b ltac:(lia) Hb1) as Hmono.
      rewrite Z.pow_1_r in Hmono. lia. }
  pose proof (power_try_nonneg a b Hb) as Htry.
  replace (1000 <? a ^ b) with true in Htry by (symmetry; apply Z.ltb_lt; lia).
  unfold run, maths_power_numbers.
  rewrite (try_except_clause_raise _ _ _ _ Htry). discriminate.
Qed.

(** X10: the bases -1, 0 and 1 never fail for a non-negative exponent and
    give a result in [-1, 1]; the exponent 0 gives 1 for every base, also
    for base 0 and for bases above the limit. *)
Theorem power_unit_bases_and_zero_exponent (a b : Z) :
  (-1 <= a <= 1 -> 0 <= b ->
   -1 <= a ^ b <= 1
   /\ maths_power_numbers a b module_init
      = (Return (PyInt (a ^ b)), module_init))
  /\ maths_power_numbers a 0 module_init = (Return (PyInt 1), module_init).
Proof.
  split.
  - intros Ha Hb.
    assert (Habs : Z.abs (a ^ b) <= 1).
    { rewrite Z.abs_pow.
      pose proof (Z.pow_le_mono_l (Z.abs a) 1 b ltac:(lia)) as Hmono.
      rewrite Z.pow_1_l in Hmono by exact Hb. exact Hmono. }
    split; [lia |].
    unfold maths_power_numbers. apply try_except_return.
    rewrite (power_try_nonneg a b Hb).
    now replace (1000 <? a ^ b) with false by (symmetry; apply Z.ltb_ge; lia).
  - unfold maths_power_numbers. apply try_except_return.
    rewrite (power_try_nonneg a 0 ltac:(lia)).
    rewrite Z.pow_0_r. reflexivity.
Qed.

(** ** The validators *)

(** X11: for a non-negative exponent and under any value of the limit, the
    check written inside the power tool and [MathsResult.validate_result]
    decide alike: one rejects [a ** b] exactly when the other does, with
    the same exception, and one accepts exactly when the other does. *)
Theorem limit_checks_agree (a b : Z) (op : string) (g : globals) :
  0 <= b ->
  (forall e,
      run (power_try a b) g = Raise e
      <-> run (MathsResult.validate_result (MathsResult.mk (a ^ b) op)) g
          = Raise e)
  /\ (run (power_try a b) g = Return (PyInt (a ^ b))
      <-> run (MathsResult.validate_result (MathsResult.mk (a ^ b) op)) g
          = Return (MathsResult.mk (a ^ b) op)).
Proof.
  intros Hb. unfold run. rewrite (power_try_nonneg_any a b g Hb).
  unfold MathsResult.validate_result, bind, read_global.
  cbv [MathsResult.result].
  destruct (CHARACTER_LIMIT g <? a ^ b); simpl.
  - split; [intros e; split; intros H; injection H as <-; reflexivity |].
    split; intros H; discriminate H.
  - split; [intros e; split; intros H; discriminate H |].
    split; intros _; reflexivity.
Qed.

(** X12: [DivisionInput.validate_divisor] rejects an [int] divisor exactly
    when the evaluator's division would fail on it; a divisor it accepts is
    handed back unchanged, and the divide tool then returns a quotient. *)
Theorem validate_divisor_guards_division
        (a b : Z) (info : ValidationInfo) (g : globals) :
  ((exists e, run (DivisionInput.validate_divisor (PyInt b) info) g = Raise e)
   <-> (exists e, run (_make_api_request "divide" a b) g = Raise e))
  /\ (forall v,
         run (DivisionInput.validate_divisor (PyInt b) info) g = Return v ->
         v = PyInt b
         /\ exists q, maths_divide_numbers a b g = (Return (PyInt q), g)).
Proof.
  unfold run. rewrite make_api_request_divide.
  unfold DivisionInput.validate_divisor, py_eq_zero, py_floordiv.
  destruct (Z.eqb_spec b 0) as [-> | Hb]; simpl.
  - split; [split; intros _; eexists; reflexivity |].
    intros v Hv. discriminate Hv.
  - split; [split; intros [e He]; discriminate He |].
    intros v Hv. injection Hv as <-. split; [reflexivity |].
    exists (a / b). unfold maths_divide_numbers. apply try_except_return.
    unfold evaluator_try, bind.
    now rewrite make_api_request_divide, (py_floordiv_nonzero a b g Hb).
Qed.

(** X13: the failure of [MathsInput.validate_integers] tells which field it
    was run for: on a value that is not an [int], two different field names
    give two different failures. *)
Theorem validate_integers_failure_names_field
        (v : pyval) (i1 i2 : ValidationInfo) (g : globals) :
  isinstance_int v = false -> field_name i1 <> field_name i2 ->
  run (MathsInput.validate_integers v i1) g
  <> run (MathsInput.validate_integers v i2) g.
Proof.
  intros Hv Hne Heq. apply Hne.
  unfold run, MathsInput.validate_integers in Heq. rewrite Hv in Heq.
  simpl in Heq. injection Heq as Heq.
  apply (string_append_inv_tail _ _ _ Heq).
Qed.

(** The failures for fields [a] and [b] on the same [str] differ. *)
Lemma validate_integers_failure_names_field_witness :
  run (MathsInput.validate_integers (PyStr "5") (mk_info "a")) module_init
  <> run (MathsInput.validate_integers (PyStr "5") (mk_info "b")) module_init.
Proof.
  apply (validate_integers_failure_names_field
           (PyStr "5") (mk_info "a") (mk_info "b") module_init);
    [reflexivity | discriminate].
Defined.

End Platform.

(** ** Concrete inputs

    The lemmas below run the tools on explicit operands.  Where a platform
    is needed they use [exact_libm_pow]; apart from [power(2, -1)], where
    the real [pow] is exact too, the inputs are ones on which [pow] is not
    called at all. *)

(** C5 as stated fails for large negative results: [power(-2, 11)] has
    magnitude 2048 and the tool returns -2048; no error is raised. *)
Lemma C5_power_minus2_11_returned :
  0 <= 11
  /\ 1000 < Z.abs ((-2) ^ 11)
  /\ run (maths_power_numbers exact_libm_pow (-2) 11) module_init
     = Return (PyInt (-2048))
  /\ ~ (exists e,
          run (maths_power_numbers exact_libm_pow (-2) 11) module_init
          = Raise e).
Proof.
  split; [discriminate |]. split; [reflexivity |]. split; [reflexivity |].
  intros [e He]. discriminate He.
Qed.

(** [power(2, 5)] returns 32 and [power(2, 10)] fails the limit check. *)
Lemma C5_power_nonneg_exponent_witness :
  maths_power_numbers exact_libm_pow 2 5 module_init
  = (Return (PyInt 32), module_init)
  /\ power_try exact_libm_pow 2 10 module_init
     = (Raise (mk_exn ValueError "Result exceeds character limit"), module_init)
  /\ forall v,
       run (maths_power_numbers exact_libm_pow 2 10) module_init <> Return v.
Proof.
  split.
  - apply (proj1 (C5_power_nonneg_exponent exact_libm_pow 2 5 ltac:(lia))).
    vm_compute; discriminate.
  - assert (H : 1000 < 2 ^ 10) by reflexivity.
    destruct (proj2 (C5_power_nonneg_exponent exact_libm_pow 2 10 ltac:(lia)) H)
      as (Htry & _ & Hno).
    split; [exact Htry | exact Hno].
Defined.

(** [power(-2, 11) = -2048] is returned, and so is a [MathsResult] holding
    -2048. *)
Lemma C6_limit_check_one_sided_witness :
  0 <= 11
  /\ run (maths_power_numbers exact_libm_pow (-2) 11) module_init
     = Return (PyInt (-2048))
  /\ run (MathsResult.validate_result (MathsResult.mk (-2048) "power"))
         module_init
     = Return (MathsResult.mk (-2048) "power").
Proof.
  assert (Hb : 0 <= 11) by discriminate.
  destruct (C6_limit_check_one_sided exact_libm_pow (-2) 11
              (MathsResult.mk (-2048) "power") Hb) as (_ & Hpow & _ & Hres).
  split; [exact Hb |]. split.
  - apply Hpow. reflexivity.
  - apply Hres. reflexivity.
Defined.


(** C9 as stated fails for power: the outcome of [power(2, 10)] depends
    on the module global [CHARACTER_LIMIT], which the invocation reads. *)
Lemma C9_power_reads_CHARACTER_LIMIT :
  run (maths_power_numbers exact_libm_pow 2 10) {| CHARACTER_LIMIT := 1000 |}
  = Raise (mk_exn TypeError msg_raise_non_exception)
  /\ run (maths_power_numbers exact_libm_pow 2 10) {| CHARACTER_LIMIT := 2000 |}
     = Return (PyInt 1024)
  /\ run (maths_power_numbers exact_libm_pow 2 10) {| CHARACTER_LIMIT := 1000 |}
     <> run (maths_power_numbers exact_libm_pow 2 10)
            {| CHARACTER_LIMIT := 2000 |}.
Proof.
  split; [reflexivity |]. split; [reflexivity |]. discriminate.
Qed.



(** Divide returns on a nonzero divisor. *)
Lemma evaluator_tools_total_but_divide_zero_witness :
  Divide <> Power
  /\ exists z, invoke exact_libm_pow Divide 6 3 module_init
               = (Return (PyInt z), module_init).
Proof.
  assert (Ht : Divide <> Power) by discriminate.
  split; [exact Ht |].
  apply (proj2 (evaluator_tools_total_but_divide_zero exact_libm_pow
                  Divide 6 3 module_init Ht)).
  intros [_ H]. discriminate H.
Defined.

(** [power(2, 5)] returns 32, an [int] below the limit. *)
Lemma power_returns_within_limit_witness :
  (exists z, PyInt 32 = PyInt z /\ 0 <= 5 /\ z = 2 ^ 5
             /\ z <= CHARACTER_LIMIT module_init)
  \/ (exists q, PyInt 32 = PyFloat q /\ 5 < 0 /\ 2 <> 0
                /\ q = exact_libm_pow 2 5
                /\ (q <= inject_Z (CHARACTER_LIMIT module_init))%Q).
Proof.
  apply (power_returns_within_limit exact_libm_pow 2 5 module_init (PyInt 32)).
  reflexivity.
Defined.

(** [power(-10, 5) = -100000] is returned. *)
Lemma power_negative_base_odd_exponent_witness :
  (-10) ^ 5 < 0
  /\ maths_power_numbers exact_libm_pow (-10) 5 module_init
     = (Return (PyInt (-100000)), module_init).
Proof.
  apply (power_negative_base_odd_exponent exact_libm_pow (-10) 5);
    reflexivity || discriminate.
Defined.

(** [power(3, 12)] and [power(1001, 1)] return nothing. *)
Lemma power_large_operands_fail_witness :
  (forall v,
      run (maths_power_numbers exact_libm_pow 3 12) module_init <> Return v)
  /\ (forall v,
        run (maths_power_numbers exact_libm_pow 1001 1) module_init
        <> Return v).
Proof.
  split.
  - apply (power_large_operands_fail exact_libm_pow 3 12).
    left. split; discriminate.
  - apply (power_large_operands_fail exact_libm_pow 1001 1). right.
    split; [reflexivity | discriminate].
Defined.

(** [power(-1, 7) = -1]. *)
Lemma power_unit_bases_and_zero_exponent_witness :
  -1 <= (-1) ^ 7 <= 1
  /\ maths_power_numbers exact_libm_pow (-1) 7 module_init
     = (Return (PyInt (-1)), module_init).
Proof.
  apply (proj1 (power_unit_bases_and_zero_exponent exact_libm_pow (-1) 7));
    lia.
Defined.

(** Both checks reject 1024 = 2 ** 10 with the same exception. *)
Lemma limit_checks_agree_witness :
  run (MathsResult.validate_result (MathsResult.mk 1024 "power")) module_init
  = Raise (mk_exn ValueError "Result exceeds character limit").
Proof.
  apply (proj1 (limit_checks_agree exact_libm_pow 2 10 "power" module_init
                  ltac:(lia))
               (mk_exn ValueError "Result exceeds character limit")).
  reflexivity.
Defined.
